(** * node-client/client.js: Express + Passport (Auth0) demo client

    A shallow embedding of [src/node-client/client.js].  The script's own
    functions (the startup check, the strategy's verify callback,
    [ensureLoggedIn], [homePage] and the route handlers) are translated
    line by line.  The parts of Express, Passport and the JavaScript run time
    that they call are modelled next to them, each with a comment naming the
    library behaviour it stands for: Express 4's [res.status], [res.send],
    [res.redirect] and its rule that a layer runs when the one before called
    [next()]; Passport's [initialize], [session], [authenticate],
    [req.logIn], [req.logout(cb)] and [req.isAuthenticated]; the run time's
    truthiness, property reads, string conversion, [encodeURIComponent] and
    [fetch].

    A handler is a computation over the state of one request (the user on
    the request, the user in the session, the response) that returns or
    throws, and leaves a trace of what it did to the outside world: console
    output, outbound requests, responses. *)

From Stdlib Require Import String Ascii List ZArith Bool Lia DecimalString.
Import ListNotations.
Local Open Scope string_scope.
Local Open Scope Z_scope.

(* ===================================================================== *)
(** ** JavaScript values *)
(* ===================================================================== *)

Module Js.

#[local] Set Warnings "-register-all".

(** The values the script handles: environment variables are strings or
    [undefined], tokens are strings, [expires_in] is a number, the profile,
    the token response and thrown errors are plain objects. *)
Inductive JsVal : Type :=
| VUndefined
| VNull
| VBool (b : bool)
| VNum (n : Z)
| VStr (s : string)
| VObj (props : list (string * JsVal)).

(** ToBoolean: [undefined], [null], [false], [0] and the empty string are
    falsy, everything else (every object included) is truthy. *)
Definition truthy (v : JsVal) : bool :=
  match v with
  | VUndefined | VNull => false
  | VBool b => b
  | VNum n => negb (n =? 0)
  | VStr s => negb (s =? "")%string
  | VObj _ => true
  end.

(** [a || b] returns one of its operands. *)
Definition js_or (a b : JsVal) : JsVal := if truthy a then a else b.

(** ToString, as string concatenation and template literals apply it. *)
Definition ToString (v : JsVal) : string :=
  match v with
  | VUndefined => "undefined"
  | VNull => "null"
  | VBool true => "true"
  | VBool false => "false"
  | VNum n => NilZero.string_of_int (Z.to_int n)
  | VStr s => s
  | VObj _ => "[object Object]"
  end.

Fixpoint assoc (k : string) (props : list (string * JsVal)) : option JsVal :=
  match props with
  | [] => None
  | (k', v) :: rest => if (k =? k')%string then Some v else assoc k rest
  end.

(** An error object as [new TypeError(msg)] and the like build it. *)
Definition mkError (name message : string) : JsVal :=
  VObj [("name", VStr name); ("message", VStr message)].

(** Reading a data property [v.k].  On [undefined] and [null] the read
    throws a TypeError ([inr]); on an object it is the property or
    [undefined]; a string has [length] and no other data property this
    script reads (methods of the prototype, [slice] and [toString], are
    modelled where they are called). *)
Definition member (v : JsVal) (k : string) : JsVal + JsVal :=
  match v with
  | VUndefined =>
      inr (mkError "TypeError"
             ("Cannot read properties of undefined (reading '" ++ k ++ "')"))
  | VNull =>
      inr (mkError "TypeError"
             ("Cannot read properties of null (reading '" ++ k ++ "')"))
  | VObj props =>
      inl (match assoc k props with Some x => x | None => VUndefined end)
  | VStr s =>
      inl (if (k =? "length")%string then VNum (Z.of_nat (String.length s))
           else VUndefined)
  | VBool _ | VNum _ => inl VUndefined
  end.

(** [a && a.k]: the guarded read the script uses throughout. *)
Definition guarded_member (a : JsVal) (k : string) : JsVal :=
  if truthy a then
    match member a k with inl x => x | inr _ => VUndefined end
  else a.

Definition hex_digit (n : nat) : ascii :=
  ascii_of_nat (if Nat.ltb n 10 then 48 + n else 55 + n)%nat.

(** The characters [encodeURIComponent] leaves alone:
    A-Z a-z 0-9 - _ . ! ~ * ' ( ) *)
Definition uri_unreserved (c : ascii) : bool :=
  let n := nat_of_ascii c in
  ((Nat.leb 65 n && Nat.leb n 90) || (Nat.leb 97 n && Nat.leb n 122)
   || (Nat.leb 48 n && Nat.leb n 57)
   || Nat.eqb n 45 || Nat.eqb n 95 || Nat.eqb n 46 || Nat.eqb n 33
   || Nat.eqb n 126 || Nat.eqb n 42 || Nat.eqb n 39 || Nat.eqb n 40
   || Nat.eqb n 41)%bool.

(** [encodeURIComponent] over the UTF-8 bytes of the string: every byte
    that is not unreserved becomes [%XX]. *)
Fixpoint encodeURIComponent (s : string) : string :=
  match s with
  | EmptyString => EmptyString
  | String c rest =>
      if uri_unreserved c then String c (encodeURIComponent rest)
      else
        let n := nat_of_ascii c in
        String "%" (String (hex_digit (n / 16)) (String (hex_digit (n mod 16))
          (encodeURIComponent rest)))
  end.

End Js.
Import Js.

(** One double quote and one line feed, for the HTML templates. *)
Definition dq : string := String (ascii_of_nat 34) EmptyString.
Definition nl : string := String (ascii_of_nat 10) EmptyString.

(** [needle] occurs in [hay]. *)
Definition occurs_in (needle hay : string) : Prop :=
  exists pre post, hay = pre ++ needle ++ post.

(* ===================================================================== *)
(** ** Environment and startup (lines 13-26 and 184-188) *)
(* ===================================================================== *)

(** [process.env] after [dotenv] has loaded the [.env] file: each variable
    is a string or absent. *)
Record Env : Type := mkEnv {
  AUTH0_DOMAIN : option string;
  AUTH0_CLIENT_ID : option string;
  AUTH0_CLIENT_SECRET : option string;
  AUTH0_CALLBACK_URL : option string;
  API_BASE_URL : option string;
  PORT : option string
}.

Definition env_val (x : option string) : JsVal :=
  match x with Some s => VStr s | None => VUndefined end.

(** What a run does to the outside world, in order. *)
Inductive Effect : Type :=
| ConsoleError (args : list JsVal)
| ConsoleLog (args : list JsVal)
| ProcessExit (code : Z)
| Listen (port : string)
| FetchCall (url : string) (headers : list (string * string))
| Sent (status : Z) (body : string)
| Redirected (status : Z) (location : string)
| UncaughtException (err : JsVal).

(** The condition of line 23. *)
Definition missing_env (env : Env) : bool :=
  (negb (truthy (env_val (AUTH0_DOMAIN env)))
   || negb (truthy (env_val (AUTH0_CLIENT_ID env)))
   || negb (truthy (env_val (AUTH0_CLIENT_SECRET env)))
   || negb (truthy (env_val (AUTH0_CALLBACK_URL env)))
   || negb (truthy (env_val (API_BASE_URL env)))
   || negb (truthy (env_val (PORT env))))%bool.

(** The top level of the script.  [process.exit(1)] ends the process, so
    nothing after line 25 runs in the first branch; otherwise the script
    reaches [app.listen] on line 185, whose callback logs two lines. *)
Definition startup (env : Env) : list Effect :=
  if missing_env env then
    [ ConsoleError
        [VStr "Error: Missing required environment variables. Please check your .env file."];
      ProcessExit 1 ]
  else
    [ Listen (ToString (env_val (PORT env)));
      ConsoleLog
        [VStr ("Node.js client running on http://localhost:"
               ++ ToString (env_val (PORT env)))];
      ConsoleLog [VStr "Visit /login to start the Auth0 flow."] ].

Definition is_listen (e : Effect) : bool :=
  match e with Listen _ => true | _ => false end.

(** The process has bound a listener. *)
Definition listening (env : Env) : bool := existsb is_listen (startup env).

(* ===================================================================== *)
(** ** Request handling: state, exceptions, middleware *)
(* ===================================================================== *)

(** A callback handed to a library for later: the event loop runs it after
    the handler that scheduled it has returned. *)
Inductive Task : Type :=
| LogoutDone.   (* the arrow function of lines 126-132 *)

(** What one request can read and change. *)
Record St : Type := mkSt {
  req_has_passport : bool;   (* req.isAuthenticated, req.logIn, req.logout exist *)
  req_user : JsVal;          (* req.user *)
  session_user : JsVal;      (* req.session.passport.user *)
  statusCode : Z;            (* res.statusCode *)
  headersSent : bool;        (* res.headersSent *)
  pending : list Task;       (* callbacks waiting in the event loop *)
  trace : list Effect        (* effects so far, oldest first *)
}.

Definition set_has_passport (b : bool) (st : St) : St :=
  mkSt b (req_user st) (session_user st) (statusCode st) (headersSent st)
       (pending st) (trace st).
Definition set_req_user (u : JsVal) (st : St) : St :=
  mkSt (req_has_passport st) u (session_user st) (statusCode st)
       (headersSent st) (pending st) (trace st).
Definition set_session_user (u : JsVal) (st : St) : St :=
  mkSt (req_has_passport st) (req_user st) u (statusCode st) (headersSent st)
       (pending st) (trace st).
Definition set_statusCode (c : Z) (st : St) : St :=
  mkSt (req_has_passport st) (req_user st) (session_user st) c
       (headersSent st) (pending st) (trace st).
Definition set_headersSent (b : bool) (st : St) : St :=
  mkSt (req_has_passport st) (req_user st) (session_user st) (statusCode st)
       b (pending st) (trace st).
Definition set_pending (q : list Task) (st : St) : St :=
  mkSt (req_has_passport st) (req_user st) (session_user st) (statusCode st)
       (headersSent st) q (trace st).
Definition emit (e : Effect) (st : St) : St :=
  mkSt (req_has_passport st) (req_user st) (session_user st) (statusCode st)
       (headersSent st) (pending st) (trace st ++ [e]).

(** A computation returns a value or throws a JavaScript value. *)
Inductive Outcome (A : Type) : Type :=
| Ret (a : A)
| Throw (e : JsVal).
Arguments Ret {A} a.
Arguments Throw {A} e.

Definition M (A : Type) : Type := St -> Outcome A * St.

Definition ret {A} (a : A) : M A := fun st => (Ret a, st).
Definition throw {A} (e : JsVal) : M A := fun st => (Throw e, st).
Definition bind {A B} (m : M A) (k : A -> M B) : M B :=
  fun st =>
    match m st with
    | (Ret a, st') => k a st'
    | (Throw e, st') => (Throw e, st')
    end.
(** [try { m } catch (error) { h error }] *)
Definition try_catch {A} (m : M A) (h : JsVal -> M A) : M A :=
  fun st =>
    match m st with
    | (Ret a, st') => (Ret a, st')
    | (Throw e, st') => h e st'
    end.
Definition modify (f : St -> St) : M unit := fun st => (Ret tt, f st).
Definition gets {A} (f : St -> A) : M A := fun st => (Ret (f st), st).

Declare Scope js_scope.
Delimit Scope js_scope with js.
Notation "x <- m ;; k" := (bind m (fun x => k))
  (at level 61, m at next level, right associativity) : js_scope.
Notation "m ;; k" := (bind m (fun _ => k))
  (at level 61, right associativity) : js_scope.
Local Open Scope js_scope.

(** Lift a property read into the monad. *)
Definition read (v : JsVal) (k : string) : M JsVal :=
  match member v k with
  | inl x => ret x
  | inr e => throw e
  end.

(** [v.k(args)]: the read of [v.k] throws on [undefined] and [null]; no
    value of [JsVal] is a function, so calling what was read throws too. *)
Definition call_method (v : JsVal) (k : string) (args : list JsVal) : M JsVal :=
  f <- read v k ;;
  throw (mkError "TypeError" (k ++ " is not a function")).

(** [s.slice(0, n)] on a string; on any other value of [JsVal] there is no
    [slice] to call. *)
Definition slice0 (v : JsVal) (n : nat) : M string :=
  match v with
  | VStr s => ret (substring 0 n s)
  | _ => _ <- call_method v "slice" [VNum 0; VNum (Z.of_nat n)] ;; ret ""
  end.

Definition console_error (args : list JsVal) : M unit :=
  modify (emit (ConsoleError args)).
Definition console_log (args : list JsVal) : M unit :=
  modify (emit (ConsoleLog args)).

(** *** Express's response object *)

Definition ERR_HTTP_HEADERS_SENT : JsVal :=
  VObj [("name", VStr "Error"); ("code", VStr "ERR_HTTP_HEADERS_SENT");
        ("message", VStr "Cannot set headers after they are sent to the client")].

(** [res.status(code)] *)
Definition res_status (code : Z) : M unit := modify (set_statusCode code).

(** [res.send(body)]: sets headers (which throws once the head has gone
    out) and writes the body with the current status code. *)
Definition res_send (body : string) : M unit :=
  fun st =>
    if headersSent st then (Throw ERR_HTTP_HEADERS_SENT, st)
    else (Ret tt, set_headersSent true (emit (Sent (statusCode st) body) st)).

(** [res.redirect(url)]: sets [Location] (which throws once the head has
    gone out), status 302, and ends the response. *)
Definition res_redirect (url : string) : M unit :=
  fun st =>
    if headersSent st then (Throw ERR_HTTP_HEADERS_SENT, st)
    else (Ret tt, set_headersSent true (set_statusCode 302
                    (emit (Redirected 302 url) st))).

(** *** The middleware stack *)

(** Whether a handler called [next()].  [next(err)] and a thrown error both
    hand the error to Express's error handling: [Throw]. *)
Inductive Flow : Type := NextCalled | NextNotCalled.

Definition Middleware : Type := M Flow.

Definition next : M Flow := ret NextCalled.
Definition done_ (m : M unit) : M Flow := m ;; ret NextNotCalled.

(** Express runs the layers in order for as long as each calls [next()]. *)
Fixpoint run_stack (layers : list Middleware) : M Flow :=
  match layers with
  | [] => ret NextCalled
  | m :: rest =>
      f <- m ;;
      match f with
      | NextCalled => run_stack rest
      | NextNotCalled => ret NextNotCalled
      end
  end.

(* ===================================================================== *)
(** ** The outside world of one request *)
(* ===================================================================== *)

(** How [response.text()] settles. *)
Inductive TextResult : Type :=
| TextOk (text : string)
| TextFailed (err : JsVal).

(** How [fetch(url, {headers})] settles: with a response (of any HTTP
    status), or with a rejection (a transport error). *)
Inductive FetchResult : Type :=
| Resolved (status : Z) (text : TextResult)
| Rejected (err : JsVal).

(** What the Auth0 strategy finds when the browser comes back to
    [/callback]. *)
Inductive ProviderCallback : Type :=
| Delivered (accessToken refreshToken extraParams profile : JsVal)
    (* the code was exchanged for tokens and the profile loaded: the
       strategy calls the verify callback with them *)
| Denied (challenge : JsVal)
    (* the provider's redirect reports a denial or an error: the strategy
       calls [this.fail] *)
| Errored (err : JsVal).
    (* the token exchange or the profile request failed: the strategy
       calls [this.error] *)

Record World : Type := mkWorld {
  downstream : string -> list (string * string) -> FetchResult;
  provider : ProviderCallback;
  authorizeURL : string;   (* where the strategy sends [/login] *)
  JSON_stringify : JsVal -> string
    (* [JSON.stringify(v, null, 2)] as the template prints it *)
}.

(* ===================================================================== *)
(** ** Passport (lines 44-76) *)
(* ===================================================================== *)

(** The verify callback, lines 57-70: [done(null, user)] is returned as the
    pair [(err, user)]. *)
Definition verify (accessToken refreshToken extraParams profile : JsVal)
  : JsVal * JsVal :=
  let user :=
    VObj [ ("profile", profile);
           ("accessToken", accessToken);
           ("idToken", guarded_member extraParams "id_token");
           ("tokenType", guarded_member extraParams "token_type");
           ("expiresIn", guarded_member extraParams "expires_in") ] in
  (VNull, user).

(** Lines 73-74. *)
Definition serializeUser (user : JsVal) : JsVal * JsVal := (VNull, user).
Definition deserializeUser (user : JsVal) : JsVal * JsVal := (VNull, user).

(** [passport.initialize()]: equips the request with [logIn], [logout] and
    [isAuthenticated]. *)
Definition passport_initialize : Middleware :=
  modify (set_has_passport true) ;; next.

(** [passport.session()]: when the session holds a serialized user ([su ||
    su === 0]) it is deserialized; a falsy result removes it from the
    session, any other becomes [req.user]. *)
Definition passport_session : Middleware :=
  su <- gets session_user ;;
  if (truthy su || match su with VNum 0 => true | _ => false end)%bool then
    let '(err, user) := deserializeUser su in
    if truthy err then throw err
    else if negb (truthy user) then
      modify (set_session_user VUndefined) ;; next
    else
      modify (set_req_user user) ;; next
  else next.

(** [req.isAuthenticated()] of Passport: [this.user ? true : false]. *)
Definition isAuthenticated : M JsVal :=
  u <- gets req_user ;; ret (VBool (truthy u)).

(** [req.isAuthenticated && req.isAuthenticated()], as lines 80 and 87
    write it: [undefined] when the method is not there. *)
Definition isAuthenticated_guarded : M JsVal :=
  has <- gets req_has_passport ;;
  if has then isAuthenticated else ret VUndefined.

(** [req.logIn(user)]: the serialized user goes into the session and the
    user becomes [req.user]. *)
Definition req_logIn (user : JsVal) : M unit :=
  let '(err, obj) := serializeUser user in
  if truthy err then throw err
  else
    modify (set_session_user obj) ;;
    modify (set_req_user user).

(** [req.logout(cb)]: [req.user] is set to [null], the user is removed from
    the session, and [cb] is called once the session store has saved and
    regenerated the session, that is after the calling handler has
    returned. *)
Definition req_logout (cb : Task) : M unit :=
  modify (set_req_user VNull) ;;
  modify (set_session_user VUndefined) ;;
  modify (fun st => set_pending (pending st ++ [cb]) st).

(** What a strategy tells Passport. *)
Inductive StrategyAction : Type :=
| ActSuccess (user : JsVal)
| ActFail (challenge : JsVal)
| ActRedirect (url : string)
| ActError (err : JsVal).

(** The Auth0 strategy on [/callback]: with tokens and profile in hand it
    calls [verify] and reads [done]'s arguments ([verified] of
    passport-oauth2: an error is an error, a falsy user a failure). *)
Definition auth0_callback (w : World) : StrategyAction :=
  match provider w with
  | Delivered accessToken refreshToken extraParams profile =>
      let '(err, user) := verify accessToken refreshToken extraParams profile in
      if truthy err then ActError err
      else if negb (truthy user) then ActFail VUndefined
      else ActSuccess user
  | Denied challenge => ActFail challenge
  | Errored err => ActError err
  end.

(** The Auth0 strategy on [/login]: a redirect to the provider. *)
Definition auth0_login (w : World) : StrategyAction :=
  ActRedirect (authorizeURL w).

(** [passport.authenticate(name, {failureRedirect})] as a middleware, given
    what the strategy did.  Success logs the user in and calls [next()];
    failure redirects to [failureRedirect] when there is one and answers
    401 otherwise; an error goes to [next(err)]. *)
Definition passport_authenticate (failureRedirect : option string)
    (action : StrategyAction) : Middleware :=
  match action with
  | ActSuccess user => req_logIn user ;; next
  | ActFail _ =>
      match failureRedirect with
      | Some url => done_ (res_redirect url)
      | None => done_ (res_status 401 ;; res_send "Unauthorized")
      end
  | ActRedirect url => done_ (res_redirect url)
  | ActError err => throw err
  end.

(* ===================================================================== *)
(** ** Helpers and routes (lines 78-182) *)
(* ===================================================================== *)

(** Lines 79-84. *)
Definition ensureLoggedIn : Middleware :=
  a <- isAuthenticated_guarded ;;
  if truthy a then next
  else done_ (res_redirect "/login").

Definition home_page_body (loggedIn : JsVal) : string :=
  nl ++ "        <h1>Home</h1>" ++ nl ++
  "        <p>Status: " ++ (if truthy loggedIn then "Logged In" else "Logged Out")
    ++ "</p>" ++ nl ++
  "        <ul>" ++ nl ++
  "            <li><a href=" ++ dq ++ "/login" ++ dq ++ ">Login</a></li>" ++ nl ++
  "            <li><a href=" ++ dq ++ "/logout" ++ dq ++ ">Logout</a></li>" ++ nl ++
  "            <li><a href=" ++ dq ++ "/profile" ++ dq ++ ">Profile</a></li>" ++ nl ++
  "            <li><a href=" ++ dq ++ "/call-api" ++ dq
    ++ ">Call Sprint Boot /secure-data</a></li>" ++ nl ++
  "        </ul>" ++ nl ++
  "    ".

(** Lines 86-98. *)
Definition homePage : Middleware :=
  loggedIn <- isAuthenticated_guarded ;;
  done_ (res_send (home_page_body loggedIn)).

(** Lines 118-122, the handler behind [passport.authenticate] on
    [/callback]. *)
Definition callback_handler : Middleware :=
  u <- gets req_user ;;
  console_log [VStr "User after login:"; u] ;;
  done_ (res_redirect "/profile").

(** Lines 126-132, the callback given to [req.logout]. *)
Definition logout_done (env : Env) : M unit :=
  let returnTo :=
    encodeURIComponent ("http://localhost:" ++ ToString (env_val (PORT env)) ++ "/") in
  let logoutURL :=
    VStr ("https://" ++ ToString (env_val (AUTH0_DOMAIN env)) ++ "/v2/logout") in
  sp <- read logoutURL "searchParams" ;;
  call_method sp "append" [VStr "client_id"; env_val (AUTH0_CLIENT_ID env)] ;;
  sp' <- read logoutURL "searchParams" ;;
  call_method sp' "append" [VStr "returnTo"; VStr returnTo] ;;
  res_redirect (ToString logoutURL).

(** Lines 125-136. *)
Definition logout_handler : Middleware :=
  req_logout LogoutDone ;;
  done_ (res_redirect "/").

Definition token_preview (tok : JsVal) : M string :=
  if truthy tok then (p <- slice0 tok 40 ;; ret (p ++ "..."))
  else ret "none".

Definition profile_page_body (profile_json idToken accessToken : string) : string :=
  nl ++ "        <h1>Profile</h1>" ++ nl ++
  "        <pre>" ++ profile_json ++ "</pre>" ++ nl ++
  "        <h3>Tokens</h3>" ++ nl ++
  "        <p>ID Token (JWT): " ++ idToken ++ "</p>" ++ nl ++
  "        <p>Access Token: " ++ accessToken ++ "</p>" ++ nl ++
  "        <p><a href=" ++ dq ++ "/call-api" ++ dq
    ++ ">Call Protected Spring API</a></p>" ++ nl ++
  "        <p><a href=" ++ dq ++ "/" ++ dq ++ ">Home</a></p>" ++ nl ++
  "    ".

(** Lines 139-150. *)
Definition profile_handler (w : World) : Middleware :=
  u <- gets req_user ;;
  let user := js_or u (VObj []) in
  profile <- read user "profile" ;;
  idToken <- read user "idToken" ;;
  accessToken <- read user "accessToken" ;;
  id_txt <- token_preview idToken ;;
  at_txt <- token_preview accessToken ;;
  done_ (res_send (profile_page_body (JSON_stringify w profile) id_txt at_txt)).

(** [await fetch(url, {headers})]: one outbound request; a rejection is
    thrown at the [await]. *)
Definition fetch (w : World) (url : string) (headers : list (string * string))
  : M (Z * TextResult) :=
  modify (emit (FetchCall url headers)) ;;
  match downstream w url headers with
  | Resolved status text => ret (status, text)
  | Rejected err => throw err
  end.

(** [await response.text()] *)
Definition response_text (response : Z * TextResult) : M string :=
  match snd response with
  | TextOk text => ret text
  | TextFailed err => throw err
  end.

Definition api_page_body (text status : string) : string :=
  nl ++ "            <h2>Spring Boot API Response</h2>" ++ nl ++
  "            <pre>" ++ text ++ "</pre>" ++ nl ++
  "            <p>Status: " ++ status ++ "</p>" ++ nl ++
  "            <p><a href=" ++ dq ++ "/" ++ dq ++ ">Home</a></p>" ++ nl ++
  "        ".

Definition api_error_body (message : string) : string :=
  nl ++ "            <h2>Error Calling Protected API</h2>" ++ nl ++
  "            <p>" ++ message ++ "</p>" ++ nl ++
  "            <p><a href=" ++ dq ++ "/" ++ dq ++ ">Home</a></p>" ++ nl ++
  "        ".

(** The URL of line 160. *)
Definition api_url (env : Env) : string :=
  ToString (js_or (env_val (API_BASE_URL env)) (VStr "http://localhost:8080"))
  ++ "/secure-data".

(** Lines 153-182. *)
Definition call_api_handler (env : Env) (w : World) : Middleware :=
  u <- gets req_user ;;
  let accessToken := guarded_member u "accessToken" in
  if negb (truthy accessToken) then
    done_ (res_status 401 ;; res_send "No access token. Please log in again.")
  else
    let url := api_url env in
    done_ (try_catch
      (response <- fetch w url [("Authorization", "Bearer " ++ ToString accessToken)] ;;
       text <- response_text response ;;
       res_send (api_page_body text (ToString (VNum (fst response)))))
      (fun error =>
         console_error [VStr "Error calling protected API:"; error] ;;
         res_status 500 ;;
         message <- read error "message" ;;
         res_send (api_error_body (ToString message)))).

(* ===================================================================== *)
(** ** The application *)
(* ===================================================================== *)

Inductive Route : Type := Home | Login | Callback | Logout | Profile | CallApi.

(** [app.use(...)], lines 32-42 and 75-76.  The session middleware has
    attached the session before these run: see [request_state]. *)
Definition app_use : list Middleware := [passport_initialize; passport_session].

(** The route table, lines 103-182. *)
Definition route_stack (env : Env) (w : World) (r : Route) : list Middleware :=
  match r with
  | Home => [homePage]
  | Login => [passport_authenticate None (auth0_login w)]
  | Callback => [passport_authenticate (Some "/") (auth0_callback w); callback_handler]
  | Logout => [logout_handler]
  | Profile => [ensureLoggedIn; profile_handler w]
  | CallApi => [ensureLoggedIn; call_api_handler env w]
  end.

Definition protected (r : Route) : bool :=
  match r with Profile | CallApi => true | _ => false end.

(** A fresh request as the session middleware of lines 32-42 hands it on:
    the session holds [su] as its serialized user ([VUndefined] when nobody
    has logged in), the status is 200 and nothing has been sent. *)
Definition request_state (su : JsVal) : St :=
  mkSt false VUndefined su 200 false [] [].

Definition run_task (env : Env) (t : Task) : M unit :=
  match t with
  | LogoutDone => logout_done env
  end.

(** The event loop after the handler has returned: the scheduled callbacks
    run in order; an exception that escapes one is uncaught and ends the
    process. *)
Fixpoint drain (env : Env) (tasks : list Task) (st : St) : St :=
  match tasks with
  | [] => st
  | t :: rest =>
      match run_task env t st with
      | (Ret _, st') => drain env rest st'
      | (Throw e, st') => emit (UncaughtException e) st'
      end
  end.

(** One request, from the first middleware to the last callback. *)
Definition handle (env : Env) (w : World) (r : Route) (su : JsVal)
  : Outcome Flow * St :=
  let '(o, st) := run_stack (app_use ++ route_stack env w r) (request_state su) in
  (o, drain env (pending st) (set_pending [] st)).

(** Requests are served only by a process that is listening. *)
Definition serve (env : Env) (w : World) (r : Route) (su : JsVal)
  : option (Outcome Flow * St) :=
  if listening env then Some (handle env w r su) else None.

(** Projections of a finished request. *)
Definition fetches (st : St) : list Effect :=
  filter (fun e => match e with FetchCall _ _ => true | _ => false end) (trace st).
Definition responses (st : St) : list Effect :=
  filter (fun e => match e with Sent _ _ | Redirected _ _ => true | _ => false end)
         (trace st).

(** *** Sample inputs *)

Definition env0 : Env :=
  mkEnv (Some "dev.example.auth0.com") (Some "client-id") (Some "client-secret")
        (Some "http://localhost:3000/callback") (Some "https://api.example.com")
        (Some "3000").

(** The same with [API_BASE_URL] left out of the [.env] file. *)
Definition env_no_api : Env :=
  mkEnv (Some "dev.example.auth0.com") (Some "client-id") (Some "client-secret")
        (Some "http://localhost:3000/callback") None (Some "3000").

Definition world0 : World :=
  mkWorld (fun _ _ => Resolved 200 (TextOk "hello"))
          (Delivered (VStr "abc") VUndefined
             (VObj [("id_token", VStr "idt"); ("token_type", VStr "Bearer");
                    ("expires_in", VNum 86400)])
             (VObj [("id", VStr "auth0|1")]))
          "https://dev.example.auth0.com/authorize"
          (fun _ => "{}").

Definition user0 : JsVal :=
  snd (verify (VStr "abc") VUndefined
         (VObj [("id_token", VStr "idt"); ("token_type", VStr "Bearer");
                ("expires_in", VNum 86400)])
         (VObj [("id", VStr "auth0|1")])).

(** *** Sessions across requests *)

(** The session middleware is configured without a store (lines 32-42), so
    sessions live in express-session's MemoryStore, which keeps each one as
    JSON text: what a later request reads back is
    [JSON.parse(JSON.stringify(session))].  Properties whose value is
    [undefined] are dropped, everything else [JsVal] holds is kept. *)
Fixpoint json_roundtrip (v : JsVal) : JsVal :=
  match v with
  | VObj props =>
      VObj ((fix go (ps : list (string * JsVal)) : list (string * JsVal) :=
               match ps with
               | [] => []
               | (k, VUndefined) :: rest => go rest
               | (k, x) :: rest => (k, json_roundtrip x) :: go rest
               end) props)
  | other => other
  end.

(** The serialized user the next request of the same browser finds in its
    session. *)
Definition session_after (env : Env) (w : World) (r : Route) (su : JsVal)
  : JsVal :=
  json_roundtrip (session_user (snd (handle env w r su))).



(** *** The argument of line 127 *)

(** [encodeURIComponent('http://localhost:' + PORT + '/')] *)
Definition logout_returnTo (env : Env) : string :=
  encodeURIComponent ("http://localhost:" ++ ToString (env_val (PORT env)) ++ "/").

Definition is_digit (c : ascii) : bool :=
  (Nat.leb 48 (nat_of_ascii c) && Nat.leb (nat_of_ascii c) 57)%bool.

(** The characters a query-string value may hold without further escaping:
    the unreserved ones and the percent sign of an escape. *)
Definition uri_safe (c : ascii) : bool :=
  (uri_unreserved c || Nat.eqb (nat_of_ascii c) 37)%bool.

(* ===================================================================== *)
(** ** The TypeScript entry point (src/unnamed/part_000) *)
(* ===================================================================== *)



(** The same world with the downstream API unreachable. *)
Definition world_down : World :=
  mkWorld (fun _ _ => Rejected (mkError "TypeError" "fetch failed"))
          (provider world0) (authorizeURL world0) (JSON_stringify world0).

(** The same world with the provider refusing the token exchange. *)
Definition world_token_error : World :=
  mkWorld (downstream world0)
          (Errored (mkError "TokenError" "Invalid authorization code"))
          (authorizeURL world0) (JSON_stringify world0).

(** The state in which the route's own handlers start: [request_state]
    after [app_use] (lemma [app_use_run]). *)
Definition routed_state (su : JsVal) : St :=
  mkSt true
       (if truthy su then su else VUndefined)
       (match su with VNum 0 => VUndefined | _ => su end)
       200 false [] [].

(* ===================================================================== *)
(** ** Decision tables and further sample inputs *)
(* ===================================================================== *)

(** What [/call-api] does for a logged-in session, as a table. *)
Definition call_api_table (env : Env) (w : World) (su : JsVal)
  : Outcome Flow * St :=
  let token := guarded_member su "accessToken" in
  let headers := [("Authorization", "Bearer " ++ ToString token)] in
  let sent := FetchCall (api_url env) headers in
  let failed (err : JsVal) :=
    match member err "message" with
    | inl m =>
        (Ret NextNotCalled,
         mkSt true su su 500 true []
              [ sent; ConsoleError [VStr "Error calling protected API:"; err];
                Sent 500 (api_error_body (ToString m)) ])
    | inr e =>
        (Throw e,
         mkSt true su su 500 false []
              [ sent; ConsoleError [VStr "Error calling protected API:"; err] ])
    end in
  if truthy token then
    match downstream w (api_url env) headers with
    | Resolved status (TextOk text) =>
        (Ret NextNotCalled,
         mkSt true su su 200 true []
              [ sent; Sent 200 (api_page_body text (ToString (VNum status))) ])
    | Resolved _ (TextFailed err) => failed err
    | Rejected err => failed err
    end
  else
    (Ret NextNotCalled,
     mkSt true su su 401 true [] [Sent 401 "No access token. Please log in again."]).

(** What [/profile] does for a logged-in session, as a table. *)
Definition preview_table (token : JsVal) : string + JsVal :=
  if truthy token then
    match token with
    | VStr s => inl (substring 0 40 s ++ "...")
    | _ => inr (mkError "TypeError" "slice is not a function")
    end
  else inl "none".

Definition profile_table (w : World) (su : JsVal) : Outcome Flow * St :=
  let get k := match member su k with inl x => x | inr _ => VUndefined end in
  match preview_table (get "idToken"), preview_table (get "accessToken") with
  | inl id_txt, inl at_txt =>
      (Ret NextNotCalled,
       mkSt true su su 200 true []
            [Sent 200 (profile_page_body (JSON_stringify w (get "profile"))
                         id_txt at_txt)])
  | inr e, _ => (Throw e, mkSt true su su 200 false [] [])
  | inl _, inr e => (Throw e, mkSt true su su 200 false [] [])
  end.


(** The same world with the downstream call rejected by an error that has
    no message. *)
Definition world_odd_rejection : World :=
  mkWorld (fun _ _ => Rejected (VObj [("code", VStr "ECONNREFUSED")]))
          (provider world0) (authorizeURL world0) (JSON_stringify world0).


(* ===================================================================== *)
(** ** General lemmas *)
(* ===================================================================== *)

(** Unfold the monad's plumbing and the response primitives. *)
Ltac run_m :=
  repeat progress
    (cbv beta iota zeta delta
       [bind ret throw gets modify try_catch next done_ read
        res_status res_send res_redirect console_log console_error];
     cbn [truthy negb fst snd]).

Lemma run_stack_app (l1 l2 : list Middleware) (st : St) :
  run_stack (l1 ++ l2) st =
  match run_stack l1 st with
  | (Ret NextCalled, st') => run_stack l2 st'
  | other => other
  end.
Proof.
  revert st; induction l1 as [|m l1 IH]; intros st; simpl.
  - reflexivity.
  - unfold bind. destruct (m st) as [[[|]|e] st']; simpl; auto.
Qed.

Lemma run_stack_single (m : Middleware) (st : St) : run_stack [m] st = m st.
Proof.
  simpl. unfold bind. destruct (m st) as [[[|]|e] st']; reflexivity.
Qed.

Lemma app_use_run (su : JsVal) :
  run_stack app_use (request_state su) = (Ret NextCalled, routed_state su).
Proof.
  destruct su as [| |[|]|[|n|n]|[|c s]|ps]; reflexivity.
Qed.

Lemma routed_state_logged_in (su : JsVal) :
  truthy su = true -> routed_state su = mkSt true su su 200 false [] [].
Proof.
  destruct su as [| |[|]|[|n|n]|[|c s]|ps]; simpl; intros H;
    try discriminate; reflexivity.
Qed.

Lemma handle_unfold (env : Env) (w : World) (r : Route) (su : JsVal) :
  handle env w r su =
  let '(o, st) := run_stack (route_stack env w r) (routed_state su) in
  (o, drain env (pending st) (set_pending [] st)).
Proof.
  unfold handle. rewrite run_stack_app, app_use_run. reflexivity.
Qed.

Lemma occurs_in_middle (pre needle post : string) :
  occurs_in needle (pre ++ needle ++ post).
Proof. exists pre, post. reflexivity. Qed.

Lemma string_app_assoc (a b c : string) : (a ++ b) ++ c = a ++ (b ++ c).
Proof. induction a; simpl; congruence. Qed.

(** Bring both sides of an equation between concatenations to the same
    right-nested form. *)
Ltac str_norm :=
  unfold nl, dq;
  repeat (cbn [append];
          match goal with
          | |- context [((?a ++ ?b) ++ ?c)%string] =>
              rewrite (string_app_assoc a b c)
          end);
  cbn [append].

Lemma truthy_env_val (x : option string) :
  truthy (env_val x) = true <-> exists s, x = Some s /\ s <> "".
Proof.
  destruct x as [s|]; simpl.
  - destruct (String.eqb_spec s ""); simpl; split.
    + discriminate.
    + intros [s' [E N]]. inversion E; subst. contradiction.
    + intros _. eauto.
    + reflexivity.
  - split; [discriminate | intros [s [E _]]; discriminate].
Qed.

(* ===================================================================== *)
(** ** The authenticated-request gate *)
(* ===================================================================== *)

(** The gate on its own, from any state in which Passport is installed and
    nothing has been sent: with a user it calls [next()] and changes
    nothing; without one it redirects to [/login] and changes nothing
    else. *)
Lemma ensureLoggedIn_run (st : St) :
  req_has_passport st = true -> headersSent st = false ->
  ensureLoggedIn st =
  if truthy (req_user st) then (Ret NextCalled, st)
  else (Ret NextNotCalled,
        set_headersSent true (set_statusCode 302 (emit (Redirected 302 "/login") st))).
Proof.
  intros Hp Hs. unfold ensureLoggedIn, isAuthenticated_guarded, isAuthenticated.
  run_m. rewrite Hp. run_m. destruct (truthy (req_user st)); run_m.
  - reflexivity.
  - rewrite Hs. reflexivity.
Qed.

(** C1.  On a protected route ([/profile], [/call-api]) the first handler
    of the route is the gate [ensureLoggedIn].  From any state with
    Passport installed and nothing sent, the gate calls [next()] and
    changes nothing when the request has a user, and otherwise ends the
    request with a redirect to [/login] and changes nothing else.  For a
    whole request the gate calls [next()] exactly when the session holds a
    user; with one the route's handler runs, without one the only effect of
    the request is the redirect. *)
Theorem ensureLoggedIn_gate (env : Env) (w : World) (r : Route)
    (Hr : protected r = true) :
  exists h : Middleware,
    route_stack env w r = [ensureLoggedIn; h] /\
    (forall st, req_has_passport st = true -> headersSent st = false ->
       ensureLoggedIn st =
       if truthy (req_user st) then (Ret NextCalled, st)
       else (Ret NextNotCalled,
             set_headersSent true
               (set_statusCode 302 (emit (Redirected 302 "/login") st)))) /\
    (forall su,
       fst (run_stack (app_use ++ [ensureLoggedIn]) (request_state su))
         = Ret NextCalled <-> truthy su = true) /\
    (forall su, truthy su = true ->
       run_stack (app_use ++ route_stack env w r) (request_state su)
         = h (mkSt true su su 200 false [] [])) /\
    (forall su, truthy su = false ->
       exists st, handle env w r su = (Ret NextNotCalled, st) /\
                  trace st = [Redirected 302 "/login"] /\
                  req_user st = VUndefined /\
                  session_user st = session_user (routed_state su)).
Proof.
  assert (Hgate : forall su,
             run_stack [ensureLoggedIn] (routed_state su) =
             if truthy su then (Ret NextCalled, routed_state su)
             else (Ret NextNotCalled,
                   set_headersSent true
                     (set_statusCode 302
                        (emit (Redirected 302 "/login") (routed_state su))))).
  { intros su. rewrite run_stack_single, ensureLoggedIn_run by reflexivity.
    simpl. destruct (truthy su) eqn:E; simpl; rewrite ?E; reflexivity. }
  assert (Hall : forall h : Middleware,
    route_stack env w r = [ensureLoggedIn; h] ->
    (forall su, truthy su = true ->
       run_stack (app_use ++ route_stack env w r) (request_state su)
         = h (mkSt true su su 200 false [] [])) /\
    (forall su, truthy su = false ->
       exists st, handle env w r su = (Ret NextNotCalled, st) /\
                  trace st = [Redirected 302 "/login"] /\
                  req_user st = VUndefined /\
                  session_user st = session_user (routed_state su))).
  { intros h Hstack. split.
    - intros su Hsu. rewrite Hstack, run_stack_app, app_use_run.
      change [ensureLoggedIn; h] with ([ensureLoggedIn] ++ [h])%list.
      rewrite run_stack_app, Hgate, Hsu, run_stack_single.
      rewrite routed_state_logged_in by assumption. reflexivity.
    - intros su Hsu. rewrite handle_unfold, Hstack.
      change [ensureLoggedIn; h] with ([ensureLoggedIn] ++ [h])%list.
      rewrite run_stack_app, Hgate, Hsu. simpl. rewrite ?Hsu.
      eexists. split; [reflexivity|]. cbn. rewrite Hsu. auto. }
  assert (Hiff : forall su,
       fst (run_stack (app_use ++ [ensureLoggedIn]) (request_state su))
         = Ret NextCalled <-> truthy su = true).
  { intros su. rewrite run_stack_app, app_use_run, Hgate.
    destruct (truthy su); simpl; split; intros; congruence. }
  destruct r; try discriminate Hr.
  - exists (profile_handler w). split; [reflexivity|].
    split; [exact ensureLoggedIn_run|]. split; [exact Hiff|].
    apply Hall. reflexivity.
  - exists (call_api_handler env w). split; [reflexivity|].
    split; [exact ensureLoggedIn_run|]. split; [exact Hiff|].
    apply Hall. reflexivity.
Qed.

Lemma ensureLoggedIn_gate_witness :
  protected CallApi = true /\
  exists h : Middleware,
    route_stack env0 world0 CallApi = [ensureLoggedIn; h] /\
    (fst (run_stack (app_use ++ [ensureLoggedIn]) (request_state user0))
       = Ret NextCalled <-> truthy user0 = true).
Proof.
  split; [reflexivity|].
  destruct (ensureLoggedIn_gate env0 world0 CallApi eq_refl)
    as [h [Hstack [_ [Hiff _]]]].
  exists h. split; [exact Hstack | exact (Hiff user0)].
Defined.

(* ===================================================================== *)
(** ** Startup *)
(* ===================================================================== *)

Lemma missing_env_absent (env : Env) :
  AUTH0_DOMAIN env = None \/ AUTH0_CLIENT_ID env = None \/
  AUTH0_CLIENT_SECRET env = None \/ AUTH0_CALLBACK_URL env = None \/
  API_BASE_URL env = None \/ PORT env = None ->
  missing_env env = true.
Proof.
  unfold missing_env.
  intros [H|[H|[H|[H|[H|H]]]]]; rewrite H; simpl;
    repeat (reflexivity || apply orb_true_r || rewrite orb_true_r || rewrite orb_true_l).
Qed.

(** A process that passed the check of line 23 has all six variables set to
    non-empty strings. *)
Lemma listening_env (env : Env) :
  listening env = true ->
  exists domain id secret callback base port,
    env = mkEnv (Some domain) (Some id) (Some secret) (Some callback)
                (Some base) (Some port) /\
    domain <> "" /\ id <> "" /\ secret <> "" /\ callback <> "" /\
    base <> "" /\ port <> "".
Proof.
  unfold listening, startup.
  destruct (missing_env env) eqn:E; [discriminate|]. intros _.
  unfold missing_env in E.
  repeat (apply orb_false_elim in E; let E' := fresh "E" in destruct E as [E E']).
  repeat match goal with
         | H : negb _ = false |- _ => apply negb_false_iff, truthy_env_val in H;
                                      destruct H as [? [? ?]]
         end.
  destruct env; simpl in *; subst. do 6 eexists. repeat split; assumption.
Qed.

(** C4.  If one of the six required variables is absent, the script prints
    the error message and exits with status 1; no listener is bound and no
    request is ever served. *)
Theorem startup_fails_fast (env : Env)
    (Habsent : AUTH0_DOMAIN env = None \/ AUTH0_CLIENT_ID env = None \/
               AUTH0_CLIENT_SECRET env = None \/ AUTH0_CALLBACK_URL env = None \/
               API_BASE_URL env = None \/ PORT env = None) :
  startup env =
    [ ConsoleError
        [VStr "Error: Missing required environment variables. Please check your .env file."];
      ProcessExit 1 ] /\
  (exists code, In (ProcessExit code) (startup env) /\ code <> 0) /\
  (forall port, ~ In (Listen port) (startup env)) /\
  listening env = false /\
  (forall w r su, serve env w r su = None).
Proof.
  pose proof (missing_env_absent env Habsent) as Hm.
  assert (Hs : startup env =
    [ ConsoleError
        [VStr "Error: Missing required environment variables. Please check your .env file."];
      ProcessExit 1 ]) by (unfold startup; rewrite Hm; reflexivity).
  split; [exact Hs|]. split; [|split; [|split]].
  - exists 1. rewrite Hs. split; [simpl; auto | lia].
  - intros port. rewrite Hs. simpl. intros [H|[H|[]]]; discriminate.
  - unfold listening. rewrite Hs. reflexivity.
  - intros w r su. unfold serve, listening. rewrite Hs. reflexivity.
Qed.

Lemma startup_fails_fast_witness :
  API_BASE_URL env_no_api = None /\ listening env_no_api = false /\
  serve env_no_api world0 Home VUndefined = None.
Proof.
  split; [reflexivity|].
  destruct (startup_fails_fast env_no_api) as [_ [_ [_ [Hl Hs]]]].
  - right. right. right. right. left. reflexivity.
  - split; [exact Hl | exact (Hs world0 Home VUndefined)].
Defined.

(* ===================================================================== *)
(** ** The home page *)
(* ===================================================================== *)

Lemma home_page_body_status (b : bool) :
  occurs_in (if b then "Logged In" else "Logged Out") (home_page_body (VBool b)).
Proof.
  exists (nl ++ "        <h1>Home</h1>" ++ nl ++ "        <p>Status: ").
  destruct b; eexists; reflexivity.
Qed.

(** C5.  A request to [/] is answered once, with status 200 and a page that
    shows [Logged In] when the session holds a user and [Logged Out] when
    it does not. *)
Theorem homePage_reports_status (env : Env) (w : World) (su : JsVal) :
  exists st body,
    handle env w Home su = (Ret NextNotCalled, st) /\
    trace st = [Sent 200 body] /\
    body = home_page_body (VBool (truthy su)) /\
    occurs_in (if truthy su then "Logged In" else "Logged Out") body.
Proof.
  rewrite handle_unfold. cbn [route_stack]. rewrite run_stack_single.
  unfold homePage, isAuthenticated_guarded, isAuthenticated. run_m.
  cbn [routed_state req_has_passport req_user headersSent]. run_m.
  assert (E : truthy (if truthy su then su else VUndefined) = truthy su)
    by (destruct (truthy su) eqn:E; [exact E | reflexivity]).
  rewrite E. do 2 eexists. split; [reflexivity|]. cbn.
  split; [reflexivity|]. split; [reflexivity|]. apply home_page_body_status.
Qed.

(* ===================================================================== *)
(** ** The callback and the session's Identity *)
(* ===================================================================== *)

Lemma guarded_member_truthy (a : JsVal) (k : string) :
  truthy a = true -> member a k = inl (guarded_member a k).
Proof.
  intros H. unfold guarded_member. rewrite H.
  destruct a; simpl in *; try discriminate; reflexivity.
Qed.

Lemma guarded_member_falsy (a : JsVal) (k : string) :
  truthy a = false -> guarded_member a k = a.
Proof. intros H. unfold guarded_member. rewrite H. reflexivity. Qed.

(** The route's handlers on [/callback] when tokens and profile were
    delivered: the user built by [verify] is logged in, the handler logs it
    and redirects to [/profile]. *)
Lemma callback_delivered_run (env : Env) (w : World) (st : St)
    (accessToken refreshToken extraParams profile : JsVal) :
  provider w = Delivered accessToken refreshToken extraParams profile ->
  headersSent st = false ->
  run_stack (route_stack env w Callback) st =
  let user := snd (verify accessToken refreshToken extraParams profile) in
  (Ret NextNotCalled,
   set_headersSent true
     (set_statusCode 302
        (emit (Redirected 302 "/profile")
           (emit (ConsoleLog [VStr "User after login:"; user])
              (set_req_user user (set_session_user user st)))))).
Proof.
  intros Hp Hs. cbn [route_stack run_stack].
  unfold auth0_callback. rewrite Hp. cbn.
  unfold callback_handler. run_m. cbn. rewrite Hs. reflexivity.
Qed.

(** C2.  When the provider delivers (accessToken, refreshToken, extraParams,
    profile), with extraParams the token response, [verify] hands Passport
    an object with exactly the five properties profile, accessToken,
    idToken, tokenType and expiresIn, holding the delivered profile, the
    delivered access token and extraParams' id_token, token_type and
    expires_in; that object is what the callback request leaves in the
    session and in [req.user]. *)
Theorem verify_builds_identity
    (accessToken refreshToken extraParams profile : JsVal)
    (Hparams : truthy extraParams = true) :
  exists id_token token_type expires_in,
    member extraParams "id_token" = inl id_token /\
    member extraParams "token_type" = inl token_type /\
    member extraParams "expires_in" = inl expires_in /\
    verify accessToken refreshToken extraParams profile =
      (VNull,
       VObj [ ("profile", profile); ("accessToken", accessToken);
              ("idToken", id_token); ("tokenType", token_type);
              ("expiresIn", expires_in) ]) /\
    forall env w su,
      provider w = Delivered accessToken refreshToken extraParams profile ->
      session_user (snd (handle env w Callback su)) =
        VObj [ ("profile", profile); ("accessToken", accessToken);
               ("idToken", id_token); ("tokenType", token_type);
               ("expiresIn", expires_in) ] /\
      req_user (snd (handle env w Callback su)) =
        session_user (snd (handle env w Callback su)).
Proof.
  exists (guarded_member extraParams "id_token"),
         (guarded_member extraParams "token_type"),
         (guarded_member extraParams "expires_in").
  repeat split; try (apply guarded_member_truthy; assumption).
  - rewrite handle_unfold, (callback_delivered_run env w _ _ _ _ _ H) by reflexivity.
    reflexivity.
  - rewrite handle_unfold, (callback_delivered_run env w _ _ _ _ _ H) by reflexivity.
    reflexivity.
Qed.

Lemma verify_builds_identity_witness :
  truthy (VObj [("id_token", VStr "idt"); ("token_type", VStr "Bearer");
                ("expires_in", VNum 86400)]) = true /\
  session_user (snd (handle env0 world0 Callback VUndefined)) =
    VObj [ ("profile", VObj [("id", VStr "auth0|1")]);
           ("accessToken", VStr "abc"); ("idToken", VStr "idt");
           ("tokenType", VStr "Bearer"); ("expiresIn", VNum 86400) ].
Proof.
  split; [reflexivity|].
  destruct (verify_builds_identity (VStr "abc") VUndefined
              (VObj [("id_token", VStr "idt"); ("token_type", VStr "Bearer");
                     ("expires_in", VNum 86400)])
              (VObj [("id", VStr "auth0|1")]) eq_refl)
    as [i [t [x [Hi [Ht [Hx [_ Hs]]]]]]].
  destruct (Hs env0 world0 VUndefined eq_refl) as [Hsess _].
  rewrite Hsess. cbn in Hi, Ht, Hx.
  injection Hi as <-. injection Ht as <-. injection Hx as <-. reflexivity.
Defined.

(* ===================================================================== *)
(** ** The downstream call *)
(* ===================================================================== *)

(** A request to [/call-api] whose session holds a user reaches the
    route's handler with that user in [req.user]. *)
Lemma call_api_logged_in (env : Env) (w : World) (su : JsVal) :
  truthy su = true ->
  handle env w CallApi su =
  let '(o, st) := call_api_handler env w (mkSt true su su 200 false [] []) in
  (o, drain env (pending st) (set_pending [] st)).
Proof.
  intros Hsu. rewrite handle_unfold. cbn [route_stack].
  change [ensureLoggedIn; call_api_handler env w]
    with ([ensureLoggedIn] ++ [call_api_handler env w])%list.
  rewrite run_stack_app, run_stack_single, ensureLoggedIn_run by reflexivity.
  rewrite routed_state_logged_in by assumption.
  cbn [req_user]. rewrite Hsu, run_stack_single. reflexivity.
Qed.

(** A user whose [accessToken] is a string is an object, hence truthy. *)
Lemma holds_token_truthy (su : JsVal) (t : string) :
  member su "accessToken" = inl (VStr t) ->
  truthy su = true /\ guarded_member su "accessToken" = VStr t.
Proof.
  intros H.
  assert (Ht : truthy su = true)
    by (destruct su; simpl in H; try discriminate; reflexivity).
  split; [exact Ht|].
  pose proof (guarded_member_truthy su "accessToken" Ht) as G.
  rewrite H in G. injection G as G. symmetry. exact G.
Qed.

Lemma truthy_VStr (t : string) : t <> "" -> truthy (VStr t) = true.
Proof.
  intros H. simpl. destruct (String.eqb_spec t ""); [contradiction|reflexivity].
Qed.

(** C3.  When the session's user holds the non-empty access token [t], a
    request to [/call-api] issues exactly one outbound request, to
    [api_url] with the header [Authorization: Bearer t]; when that request
    is answered with status [status] and body [text], the caller gets one
    page (status 200) that contains [text] unchanged and [status] in
    decimal. *)
Theorem call_api_sends_bearer (env : Env) (w : World) (su : JsVal) (t : string)
    (Htoken : member su "accessToken" = inl (VStr t)) (Ht : t <> "") :
  fetches (snd (handle env w CallApi su)) =
    [FetchCall (api_url env) [("Authorization", "Bearer " ++ t)]] /\
  forall status text,
    downstream w (api_url env) [("Authorization", "Bearer " ++ t)]
      = Resolved status (TextOk text) ->
    exists st,
      handle env w CallApi su = (Ret NextNotCalled, st) /\
      trace st =
        [ FetchCall (api_url env) [("Authorization", "Bearer " ++ t)];
          Sent 200 (api_page_body text (ToString (VNum status))) ] /\
      occurs_in ("<pre>" ++ text ++ "</pre>")
                (api_page_body text (ToString (VNum status))) /\
      occurs_in ("<p>Status: " ++ ToString (VNum status) ++ "</p>")
                (api_page_body text (ToString (VNum status))).
Proof.
  destruct (holds_token_truthy su t Htoken) as [Hsu Hg].
  pose proof (truthy_VStr t Ht) as Htt.
  rewrite call_api_logged_in by assumption.
  unfold call_api_handler, fetch, response_text. run_m.
  cbn [req_user]. rewrite Hg. cbn [truthy ToString] in *. rewrite Htt. run_m.
  split.
  - destruct (downstream w (api_url env) [("Authorization", "Bearer " ++ t)])
      as [status [text|err]|err]; run_m; cbn;
      try (destruct (member err "message"); run_m; cbn); reflexivity.
  - intros status text Hd. rewrite Hd. run_m. cbn.
    eexists. split; [reflexivity|]. split; [reflexivity|].
    unfold api_page_body. split.
    + exists (nl ++ "            <h2>Spring Boot API Response</h2>" ++ nl
                 ++ "            ").
      exists (nl ++ "            <p>Status: " ++ ToString (VNum status) ++ "</p>"
                 ++ nl ++ "            <p><a href=" ++ dq ++ "/" ++ dq
                 ++ ">Home</a></p>" ++ nl ++ "        ").
      str_norm. reflexivity.
    + exists (nl ++ "            <h2>Spring Boot API Response</h2>" ++ nl
                 ++ "            <pre>" ++ text ++ "</pre>" ++ nl ++ "            ").
      exists (nl ++ "            <p><a href=" ++ dq ++ "/" ++ dq
                 ++ ">Home</a></p>" ++ nl ++ "        ").
      str_norm. reflexivity.
Qed.

Lemma call_api_sends_bearer_witness :
  member user0 "accessToken" = inl (VStr "abc") /\ "abc" <> "" /\
  fetches (snd (handle env0 world0 CallApi user0)) =
    [FetchCall "https://api.example.com/secure-data" [("Authorization", "Bearer abc")]].
Proof.
  split; [reflexivity|]. split; [discriminate|].
  apply (call_api_sends_bearer env0 world0 user0 "abc" eq_refl). discriminate.
Defined.

(** C6.  When the session's user holds the non-empty access token [t] and
    the outbound request fails (the [fetch] is rejected, or reading the
    body is) with an error whose message is [msg], the request to
    [/call-api] logs the error and answers exactly once, with status 500
    and a page that contains [msg]; exactly one outbound request was made. *)
Theorem call_api_transport_failure (env : Env) (w : World) (su : JsVal)
    (t : string) (err : JsVal) (msg : string)
    (Htoken : member su "accessToken" = inl (VStr t)) (Ht : t <> "")
    (Hfail : downstream w (api_url env) [("Authorization", "Bearer " ++ t)]
               = Rejected err \/
             exists status,
               downstream w (api_url env) [("Authorization", "Bearer " ++ t)]
               = Resolved status (TextFailed err))
    (Hmsg : member err "message" = inl (VStr msg)) :
  exists st,
    handle env w CallApi su = (Ret NextNotCalled, st) /\
    trace st =
      [ FetchCall (api_url env) [("Authorization", "Bearer " ++ t)];
        ConsoleError [VStr "Error calling protected API:"; err];
        Sent 500 (api_error_body msg) ] /\
    responses st = [Sent 500 (api_error_body msg)] /\
    fetches st = [FetchCall (api_url env) [("Authorization", "Bearer " ++ t)]] /\
    occurs_in ("<p>" ++ msg ++ "</p>") (api_error_body msg).
Proof.
  destruct (holds_token_truthy su t Htoken) as [Hsu Hg].
  pose proof (truthy_VStr t Ht) as Htt.
  rewrite call_api_logged_in by assumption.
  unfold call_api_handler, fetch, response_text. run_m.
  cbn [req_user]. rewrite Hg. cbn [truthy ToString] in *. rewrite Htt. run_m.
  assert (Hocc : occurs_in ("<p>" ++ msg ++ "</p>") (api_error_body msg)).
  { unfold api_error_body.
    exists (nl ++ "            <h2>Error Calling Protected API</h2>" ++ nl
               ++ "            ").
    exists (nl ++ "            <p><a href=" ++ dq ++ "/" ++ dq
               ++ ">Home</a></p>" ++ nl ++ "        ").
    str_norm. reflexivity. }
  destruct Hfail as [Hd | [status Hd]]; rewrite Hd; run_m; rewrite Hmsg; run_m;
    cbn; eexists; (split; [reflexivity|]); cbn; auto.
Qed.

Lemma call_api_transport_failure_witness :
  member user0 "accessToken" = inl (VStr "abc") /\ "abc" <> "" /\
  member (mkError "TypeError" "fetch failed") "message" = inl (VStr "fetch failed") /\
  exists st,
    handle env0 world_down CallApi user0 = (Ret NextNotCalled, st) /\
    responses st = [Sent 500 (api_error_body "fetch failed")].
Proof.
  split; [reflexivity|]. split; [discriminate|]. split; [reflexivity|].
  destruct (call_api_transport_failure env0 world_down user0 "abc"
              (mkError "TypeError" "fetch failed") "fetch failed" eq_refl)
    as [st [Hh [_ [Hr _]]]].
  - discriminate.
  - left. reflexivity.
  - reflexivity.
  - exists st. split; assumption.
Defined.

(** C9.  When the request passes the gate (the session holds a user) but
    the user's [accessToken] is falsy, the request to [/call-api] is
    answered with status 401 and the fixed message, and no outbound request
    is made. *)
Theorem call_api_without_token (env : Env) (w : World) (su token : JsVal)
    (Hsu : truthy su = true)
    (Hread : member su "accessToken" = inl token)
    (Hno : truthy token = false) :
  exists st,
    handle env w CallApi su = (Ret NextNotCalled, st) /\
    trace st = [Sent 401 "No access token. Please log in again."] /\
    fetches st = [].
Proof.
  rewrite call_api_logged_in by assumption.
  pose proof (guarded_member_truthy su "accessToken" Hsu) as G.
  rewrite Hread in G. injection G as G.
  unfold call_api_handler. run_m. cbn [req_user]. rewrite <- G, Hno. run_m.
  cbn. eexists. split; [reflexivity|]. cbn. auto.
Qed.

Lemma call_api_without_token_witness :
  truthy (VObj [("profile", VObj [])]) = true /\
  member (VObj [("profile", VObj [])]) "accessToken" = inl VUndefined /\
  exists st,
    handle env0 world0 CallApi (VObj [("profile", VObj [])])
      = (Ret NextNotCalled, st) /\
    trace st = [Sent 401 "No access token. Please log in again."].
Proof.
  split; [reflexivity|]. split; [reflexivity|].
  destruct (call_api_without_token env0 world0 (VObj [("profile", VObj [])])
              VUndefined eq_refl eq_refl eq_refl) as [st [Hh [Ht _]]].
  exists st. split; assumption.
Defined.

(** Every outbound request of [/call-api] goes to [api_url]. *)
Lemma call_api_fetch_target (env : Env) (w : World) (su : JsVal)
    (url : string) (headers : list (string * string)) :
  In (FetchCall url headers) (trace (snd (handle env w CallApi su))) ->
  url = api_url env.
Proof.
  destruct (truthy su) eqn:Hsu.
  - rewrite call_api_logged_in by assumption.
    unfold call_api_handler, fetch, response_text. run_m. cbn [req_user].
    destruct (truthy (guarded_member su "accessToken")); run_m.
    + destruct (downstream w (api_url env)
                  [("Authorization", "Bearer " ++ ToString (guarded_member su "accessToken"))])
        as [status [text|err]|err]; run_m;
        try (destruct (member err "message"); run_m); cbn;
        intuition (try discriminate); congruence.
    + cbn. intuition discriminate.
  - rewrite handle_unfold. cbn [route_stack].
    change [ensureLoggedIn; call_api_handler env w]
      with ([ensureLoggedIn] ++ [call_api_handler env w])%list.
    rewrite run_stack_app, run_stack_single, ensureLoggedIn_run by reflexivity.
    cbn. rewrite Hsu. cbn. intuition discriminate.
Qed.

(** C10.  In a process that serves requests, every outbound request of
    [/call-api] goes to [API_BASE_URL] followed by [/secure-data]:
    [API_BASE_URL] is a non-empty string there, so the [||] of line 160
    never yields its right operand. *)
Theorem api_url_is_configured_base (env : Env) (w : World) (su : JsVal)
    (o : Outcome Flow) (st : St) (url : string)
    (headers : list (string * string))
    (Hserve : serve env w CallApi su = Some (o, st))
    (Hfetch : In (FetchCall url headers) (trace st)) :
  exists base,
    API_BASE_URL env = Some base /\ base <> "" /\
    url = base ++ "/secure-data" /\
    js_or (env_val (API_BASE_URL env)) (VStr "http://localhost:8080") = VStr base.
Proof.
  unfold serve in Hserve.
  destruct (listening env) eqn:Hl; [|discriminate].
  injection Hserve as Hh.
  destruct (listening_env env Hl)
    as (domain & id & secret & callback & base & port & Henv & _ & _ & _ & _ & Hb & _).
  assert (Hor : js_or (env_val (API_BASE_URL env)) (VStr "http://localhost:8080")
                = VStr base).
  { subst env. unfold js_or. cbn [API_BASE_URL env_val]. rewrite truthy_VStr by assumption.
    reflexivity. }
  exists base. split; [subst env; reflexivity|]. split; [assumption|].
  split; [|exact Hor].
  assert (Hu : url = api_url env).
  { apply (call_api_fetch_target env w su url headers). rewrite Hh. exact Hfetch. }
  rewrite Hu. unfold api_url. rewrite Hor. reflexivity.
Qed.

Lemma api_url_is_configured_base_witness :
  exists o st,
    serve env0 world0 CallApi user0 = Some (o, st) /\
    In (FetchCall "https://api.example.com/secure-data" [("Authorization", "Bearer abc")])
       (trace st) /\
    exists base, API_BASE_URL env0 = Some base /\ base <> "".
Proof.
  eexists. eexists. split; [reflexivity|]. split; [left; reflexivity|].
  destruct (api_url_is_configured_base env0 world0 user0 _ _
              "https://api.example.com/secure-data" [("Authorization", "Bearer abc")]
              eq_refl (or_introl eq_refl)) as [base [Hb [Hne _]]].
  exists base. split; assumption.
Defined.

(* ===================================================================== *)
(** ** Logout *)
(* ===================================================================== *)

(** The callback of lines 126-132 never gets to its redirect: [logoutURL]
    is a string, its [searchParams] is [undefined], and line 129 throws. *)
Lemma logout_done_throws (env : Env) (st : St) :
  logout_done env st =
  (Throw (mkError "TypeError"
            "Cannot read properties of undefined (reading 'append')"), st).
Proof. reflexivity. Qed.

(** C7.  What a request to [/logout] does: the user is removed from the
    request and from the session, and the one response is the redirect to
    [/] of line 135.  The callback that was to redirect to the provider's
    logout endpoint runs afterwards and dies on line 129 with a TypeError;
    no response ever names another location than [/]. *)
Theorem logout_redirects_home (env : Env) (w : World) (su : JsVal) :
  exists st,
    handle env w Logout su = (Ret NextNotCalled, st) /\
    req_user st = VNull /\
    session_user st = VUndefined /\
    responses st = [Redirected 302 "/"] /\
    trace st =
      [ Redirected 302 "/";
        UncaughtException
          (mkError "TypeError"
             "Cannot read properties of undefined (reading 'append')") ].
Proof.
  rewrite handle_unfold. cbn [route_stack]. rewrite run_stack_single.
  eexists. split; [reflexivity|]. cbn. auto.
Qed.

(* ===================================================================== *)
(** ** The callback route *)
(* ===================================================================== *)

(** The route's handlers on [/callback] when the strategy fails: the
    redirect of [failureRedirect], and nothing else changes. *)
Lemma callback_denied_run (env : Env) (w : World) (st : St) (challenge : JsVal) :
  provider w = Denied challenge ->
  headersSent st = false ->
  run_stack (route_stack env w Callback) st =
  (Ret NextNotCalled,
   set_headersSent true (set_statusCode 302 (emit (Redirected 302 "/") st))).
Proof.
  intros Hp Hs. cbn [route_stack run_stack].
  unfold auth0_callback. rewrite Hp. cbn [passport_authenticate].
  run_m. rewrite Hs. reflexivity.
Qed.

(** The route's handlers on [/callback] when the strategy errors: the error
    goes to Express's error handling, and nothing changes. *)
Lemma callback_errored_run (env : Env) (w : World) (st : St) (err : JsVal) :
  provider w = Errored err ->
  run_stack (route_stack env w Callback) st = (Throw err, st).
Proof.
  intros Hp. cbn [route_stack run_stack].
  unfold auth0_callback. rewrite Hp. reflexivity.
Qed.

(** C8, as the code has it.  On [/callback]: when tokens and profile are
    delivered, the user built by [verify] is put in the session and in
    [req.user] and the response is a redirect to [/profile]; when the
    strategy fails (the provider's redirect reports a denial or an error),
    the response is a redirect to [/] and the route leaves session and
    [req.user] as it found them; when the strategy errors (the token
    exchange or the profile request fails), the error is handed to Express's
    error handling, the route sends nothing, and session and [req.user] are
    again as it found them. *)
Theorem callback_route_outcomes (env : Env) (w : World) (su : JsVal) :
  match provider w with
  | Delivered accessToken refreshToken extraParams profile =>
      exists st,
        handle env w Callback su = (Ret NextNotCalled, st) /\
        session_user st = snd (verify accessToken refreshToken extraParams profile) /\
        req_user st = snd (verify accessToken refreshToken extraParams profile) /\
        truthy (session_user st) = true /\
        responses st = [Redirected 302 "/profile"]
  | Denied _ =>
      exists st,
        handle env w Callback su = (Ret NextNotCalled, st) /\
        trace st = [Redirected 302 "/"] /\
        session_user st = session_user (routed_state su) /\
        req_user st = req_user (routed_state su)
  | Errored err =>
      exists st,
        handle env w Callback su = (Throw err, st) /\
        trace st = [] /\
        session_user st = session_user (routed_state su) /\
        req_user st = req_user (routed_state su)
  end.
Proof.
  destruct (provider w) as [a r e p | c | err] eqn:Hp; rewrite handle_unfold.
  - rewrite (callback_delivered_run env w _ a r e p Hp) by reflexivity.
    eexists. split; [reflexivity|]. cbn. auto.
  - rewrite (callback_denied_run env w _ c Hp) by reflexivity.
    eexists. split; [reflexivity|]. cbn. auto.
  - rewrite (callback_errored_run env w _ err Hp).
    eexists. split; [reflexivity|]. cbn. auto.
Qed.

(** A callback on which the provider refuses the token exchange: no
    redirect to [/] (no response at all from the route), the error is
    passed on. *)
Lemma callback_error_is_not_redirected :
  fst (handle env0 world_token_error Callback VUndefined)
    = Throw (mkError "TokenError" "Invalid authorization code") /\
  responses (snd (handle env0 world_token_error Callback VUndefined)) = [] /\
  existsb (fun e => match e with Redirected _ _ => true | _ => false end)
          (trace (snd (handle env0 world_token_error Callback VUndefined))) = false.
Proof. repeat split. Qed.

(* ===================================================================== *)
(** ** Further properties *)
(* ===================================================================== *)

(** X1.  With a user in the session whose [idToken] and [accessToken] are
    non-empty strings, [/profile] answers with status 200 and a page that
    shows the profile as JSON and the first 40 characters of each token
    followed by three dots. *)
Theorem profile_shows_token_previews (env : Env) (w : World)
    (su profile : JsVal) (idToken accessToken : string)
    (Hprofile : member su "profile" = inl profile)
    (Hid : member su "idToken" = inl (VStr idToken)) (Hid' : idToken <> "")
    (Hat : member su "accessToken" = inl (VStr accessToken))
    (Hat' : accessToken <> "") :
  exists st,
    handle env w Profile su = (Ret NextNotCalled, st) /\
    trace st =
      [Sent 200 (profile_page_body (JSON_stringify w profile)
                   (substring 0 40 idToken ++ "...")
                   (substring 0 40 accessToken ++ "..."))].
Proof.
  destruct (holds_token_truthy su accessToken Hat) as [Hsu _].
  rewrite handle_unfold. cbn [route_stack].
  change [ensureLoggedIn; profile_handler w]
    with ([ensureLoggedIn] ++ [profile_handler w])%list.
  rewrite run_stack_app, run_stack_single, ensureLoggedIn_run by reflexivity.
  rewrite routed_state_logged_in by assumption.
  cbn [req_user]. rewrite Hsu, run_stack_single.
  unfold profile_handler, token_preview, slice0, js_or. run_m.
  cbn [req_user]. rewrite Hsu, Hprofile, Hid, Hat. run_m.
  pose proof (truthy_VStr idToken Hid') as Ti.
  pose proof (truthy_VStr accessToken Hat') as Ta.
  cbn [truthy] in Ti, Ta. rewrite Ti. run_m. rewrite Ta. run_m.
  cbn. eexists. split; reflexivity.
Qed.

Lemma profile_shows_token_previews_witness :
  member user0 "accessToken" = inl (VStr "abc") /\
  exists st,
    handle env0 world0 Profile user0 = (Ret NextNotCalled, st) /\
    trace st = [Sent 200 (profile_page_body "{}" "idt..." "abc...")].
Proof.
  split; [reflexivity|].
  apply (profile_shows_token_previews env0 world0 user0
           (VObj [("id", VStr "auth0|1")]) "idt" "abc");
    (reflexivity || discriminate).
Defined.

(** X2.  A required variable that is set to the empty string counts as
    missing: the script exits with status 1 and binds no listener. *)
Theorem startup_rejects_empty_values (env : Env)
    (Hempty : AUTH0_DOMAIN env = Some "" \/ AUTH0_CLIENT_ID env = Some "" \/
              AUTH0_CLIENT_SECRET env = Some "" \/ AUTH0_CALLBACK_URL env = Some "" \/
              API_BASE_URL env = Some "" \/ PORT env = Some "") :
  startup env =
    [ ConsoleError
        [VStr "Error: Missing required environment variables. Please check your .env file."];
      ProcessExit 1 ] /\
  listening env = false.
Proof.
  assert (Hm : missing_env env = true).
  { unfold missing_env.
    destruct Hempty as [H|[H|[H|[H|[H|H]]]]]; rewrite H; simpl;
      repeat (reflexivity || rewrite orb_true_r || rewrite orb_true_l). }
  unfold listening, startup. rewrite Hm. split; reflexivity.
Qed.

Lemma startup_rejects_empty_values_witness :
  PORT (mkEnv (Some "d") (Some "i") (Some "s") (Some "c") (Some "b") (Some "")) = Some "" /\
  listening (mkEnv (Some "d") (Some "i") (Some "s") (Some "c") (Some "b") (Some ""))
    = false.
Proof.
  split; [reflexivity|].
  apply (startup_rejects_empty_values
           (mkEnv (Some "d") (Some "i") (Some "s") (Some "c") (Some "b") (Some ""))).
  do 5 right. reflexivity.
Defined.

(** X3.  Logging in opens the gate: the session left by a callback on which
    tokens and profile were delivered makes [ensureLoggedIn] call [next()]
    on the following request, whatever the session held before. *)
Theorem login_opens_gate (env : Env) (w : World) (su : JsVal)
    (accessToken refreshToken extraParams profile : JsVal)
    (Hdelivered : provider w
                  = Delivered accessToken refreshToken extraParams profile) :
  fst (run_stack (app_use ++ [ensureLoggedIn])
         (request_state (session_user (snd (handle env w Callback su)))))
  = Ret NextCalled.
Proof.
  rewrite handle_unfold,
    (callback_delivered_run env w _ _ _ _ _ Hdelivered) by reflexivity.
  reflexivity.
Qed.

Lemma login_opens_gate_witness :
  fst (run_stack (app_use ++ [ensureLoggedIn])
         (request_state (session_user (snd (handle env0 world0 Callback VUndefined)))))
  = Ret NextCalled.
Proof.
  exact (login_opens_gate env0 world0 VUndefined _ _ _ _ eq_refl).
Defined.


(* ===================================================================== *)
(** ** Every route, case by case *)
(* ===================================================================== *)

Lemma truthy_routed_user (su : JsVal) :
  truthy (req_user (routed_state su)) = truthy su.
Proof. cbn. destruct (truthy su) eqn:E; [exact E | reflexivity]. Qed.


Lemma home_run (env : Env) (w : World) (su : JsVal) :
  handle env w Home su =
  (Ret NextNotCalled,
   mkSt true (req_user (routed_state su)) (session_user (routed_state su))
        200 true [] [Sent 200 (home_page_body (VBool (truthy su)))]).
Proof.
  rewrite handle_unfold. cbn [route_stack]. rewrite run_stack_single.
  unfold homePage, isAuthenticated_guarded, isAuthenticated. run_m.
  cbn [routed_state req_has_passport req_user headersSent]. run_m.
  assert (E : truthy (if truthy su then su else VUndefined) = truthy su)
    by (destruct (truthy su) eqn:E; [exact E | reflexivity]).
  rewrite E. reflexivity.
Qed.

Lemma login_run (env : Env) (w : World) (su : JsVal) :
  handle env w Login su =
  (Ret NextNotCalled,
   mkSt true (req_user (routed_state su)) (session_user (routed_state su))
        302 true [] [Redirected 302 (authorizeURL w)]).
Proof.
  rewrite handle_unfold. cbn [route_stack]. rewrite run_stack_single. reflexivity.
Qed.

Lemma logout_run (env : Env) (w : World) (su : JsVal) :
  handle env w Logout su =
  (Ret NextNotCalled,
   mkSt true VNull VUndefined 302 true []
        [ Redirected 302 "/";
          UncaughtException
            (mkError "TypeError"
               "Cannot read properties of undefined (reading 'append')") ]).
Proof.
  rewrite handle_unfold. cbn [route_stack]. rewrite run_stack_single. reflexivity.
Qed.

Lemma callback_run (env : Env) (w : World) (su : JsVal) :
  handle env w Callback su =
  match provider w with
  | Delivered a r e p =>
      (Ret NextNotCalled,
       mkSt true (snd (verify a r e p)) (snd (verify a r e p)) 302 true []
            [ ConsoleLog [VStr "User after login:"; snd (verify a r e p)];
              Redirected 302 "/profile" ])
  | Denied _ =>
      (Ret NextNotCalled,
       mkSt true (req_user (routed_state su)) (session_user (routed_state su))
            302 true [] [Redirected 302 "/"])
  | Errored err =>
      (Throw err,
       mkSt true (req_user (routed_state su)) (session_user (routed_state su))
            200 false [] [])
  end.
Proof.
  rewrite handle_unfold.
  destruct (provider w) as [a r e p | c | err] eqn:Hp.
  - rewrite (callback_delivered_run env w _ a r e p Hp) by reflexivity. reflexivity.
  - rewrite (callback_denied_run env w _ c Hp) by reflexivity. reflexivity.
  - rewrite (callback_errored_run env w _ err Hp). reflexivity.
Qed.

(** A protected route without a user in the session. *)
Lemma protected_logged_out (env : Env) (w : World) (r : Route) (su : JsVal) :
  protected r = true -> truthy su = false ->
  handle env w r su =
  (Ret NextNotCalled,
   mkSt true VUndefined (session_user (routed_state su)) 302 true []
        [Redirected 302 "/login"]).
Proof.
  intros Hr Hsu. rewrite handle_unfold.
  assert (Hg : forall h : Middleware,
             run_stack [ensureLoggedIn; h] (routed_state su) =
             (Ret NextNotCalled,
              set_headersSent true
                (set_statusCode 302
                   (emit (Redirected 302 "/login") (routed_state su))))).
  { intros h.
    change [ensureLoggedIn; h] with ([ensureLoggedIn] ++ [h])%list.
    rewrite run_stack_app, run_stack_single, ensureLoggedIn_run by reflexivity.
    rewrite truthy_routed_user, Hsu. reflexivity. }
  destruct r; try discriminate Hr; cbn [route_stack]; rewrite Hg;
    unfold routed_state; cbn; rewrite ?Hsu; reflexivity.
Qed.

Lemma call_api_run (env : Env) (w : World) (su : JsVal) :
  truthy su = true ->
  handle env w CallApi su = call_api_table env w su.
Proof.
  intros Hsu. rewrite call_api_logged_in by assumption.
  unfold call_api_table, call_api_handler, fetch, response_text. run_m.
  cbn [req_user]. destruct (truthy (guarded_member su "accessToken")); run_m.
  - destruct (downstream w (api_url env)
                [("Authorization", "Bearer " ++ ToString (guarded_member su "accessToken"))])
      as [status [text|err]|err]; run_m;
      try (destruct (member err "message"); run_m); reflexivity.
  - reflexivity.
Qed.

Lemma token_preview_table (token : JsVal) (st : St) :
  token_preview token st =
  match preview_table token with
  | inl txt => (Ret txt, st)
  | inr e => (Throw e, st)
  end.
Proof.
  unfold token_preview, preview_table.
  destruct (truthy token) eqn:Ht; [|reflexivity].
  destruct token as [| |b|n|s|ps]; try discriminate Ht; reflexivity.
Qed.

Lemma profile_run (env : Env) (w : World) (su : JsVal) :
  truthy su = true ->
  handle env w Profile su = profile_table w su.
Proof.
  intros Hsu. rewrite handle_unfold. cbn [route_stack].
  change [ensureLoggedIn; profile_handler w]
    with ([ensureLoggedIn] ++ [profile_handler w])%list.
  rewrite run_stack_app, run_stack_single, ensureLoggedIn_run by reflexivity.
  rewrite routed_state_logged_in by assumption.
  cbn [req_user]. rewrite Hsu, run_stack_single.
  unfold profile_handler, profile_table, js_or. run_m. cbn [req_user].
  rewrite Hsu.
  rewrite !(guarded_member_truthy su _ Hsu). run_m.
  rewrite token_preview_table.
  destruct (preview_table (guarded_member su "idToken")) as [i|e]; [|reflexivity].
  run_m. rewrite token_preview_table.
  destruct (preview_table (guarded_member su "accessToken")) as [a|e]; reflexivity.
Qed.

(** Split a statement about [handle env w r su] into the cases of the
    lemmas above. *)
Ltac by_route env w r su :=
  destruct r;
  [ rewrite ?(home_run env w su)
  | rewrite ?(login_run env w su)
  | rewrite ?(callback_run env w su);
    destruct (provider w) as [? ? ? ?| ? | ?]
  | rewrite ?(logout_run env w su)
  | let H := fresh "Hsu" in
    destruct (truthy su) eqn:H;
    [ rewrite ?(profile_run env w su H); unfold profile_table; cbv zeta;
      destruct (preview_table
                  match member su "idToken" with inl x => x | inr _ => VUndefined end);
      [ destruct (preview_table
                    match member su "accessToken" with
                    | inl x => x | inr _ => VUndefined end) | ]
    | rewrite ?(protected_logged_out env w Profile su eq_refl H) ]
  | let H := fresh "Hsu" in
    destruct (truthy su) eqn:H;
    [ rewrite ?(call_api_run env w su H); unfold call_api_table; cbv zeta;
      let T := fresh "Htok" in
      destruct (truthy (guarded_member su "accessToken")) eqn:T;
      [ destruct (downstream w (api_url env)
                    [("Authorization",
                      "Bearer " ++ ToString (guarded_member su "accessToken"))])
          as [? [?|?err]|?err];
        try destruct (member err "message")
      | ]
    | rewrite ?(protected_logged_out env w CallApi su eq_refl H) ] ].



(** The user in the session after a request. *)
Lemma session_user_after (env : Env) (w : World) (r : Route) (su : JsVal) :
  session_user (snd (handle env w r su)) =
  match r with
  | Logout => VUndefined
  | Callback =>
      match provider w with
      | Delivered a b c d => snd (verify a b c d)
      | _ => session_user (routed_state su)
      end
  | _ => session_user (routed_state su)
  end.
Proof.
  by_route env w r su; try reflexivity;
    rewrite routed_state_logged_in by assumption; reflexivity.
Qed.



(* ===================================================================== *)
(** ** Sessions across requests *)
(* ===================================================================== *)


Lemma truthy_verify (a b c d : JsVal) : truthy (snd (verify a b c d)) = true.
Proof. reflexivity. Qed.





(* ===================================================================== *)
(** ** The profile page: edge cases *)
(* ===================================================================== *)

Lemma substring_prefix (n : nat) (s : string) :
  exists rest,
    s = substring 0 n s ++ rest /\
    String.length (substring 0 n s) = Nat.min n (String.length s).
Proof.
  revert s. induction n as [|n IH]; intros s.
  - exists s. destruct s; split; reflexivity.
  - destruct s as [|c s]; [exists ""; split; reflexivity|].
    destruct (IH s) as [rest [E L]]. exists rest. cbn. split.
    + f_equal. exact E.
    + f_equal. exact L.
Qed.

(** X10.  The preview of a non-empty string token is its first 40
    characters (the whole token when it is shorter) followed by three dots:
    whatever lies beyond the 40th character is not shown. *)
Theorem token_preview_shows_prefix (token : string) (st : St)
    (Htoken : token <> "") :
  exists shown hidden,
    token = shown ++ hidden /\
    String.length shown = Nat.min 40 (String.length token) /\
    token_preview (VStr token) st = (Ret (shown ++ "..."), st).
Proof.
  destruct (substring_prefix 40 token) as [rest [E L]].
  exists (substring 0 40 token), rest. split; [exact E|]. split; [exact L|].
  rewrite token_preview_table. unfold preview_table.
  rewrite (truthy_VStr token Htoken). reflexivity.
Qed.

Lemma token_preview_shows_prefix_witness :
  exists shown hidden,
    "abc" = shown ++ hidden /\
    String.length shown = Nat.min 40 (String.length "abc") /\
    token_preview (VStr "abc") (request_state VUndefined)
      = (Ret (shown ++ "..."), request_state VUndefined).
Proof.
  apply (token_preview_shows_prefix "abc" (request_state VUndefined)).
  discriminate.
Defined.

(** X11.  A logged-in user without tokens still gets the profile page:
    when [idToken] and [accessToken] are missing or falsy, [/profile]
    answers with status 200 and shows [none] for each. *)
Theorem profile_without_tokens (env : Env) (w : World)
    (su profile idToken accessToken : JsVal)
    (Hsu : truthy su = true)
    (Hprofile : member su "profile" = inl profile)
    (Hid : member su "idToken" = inl idToken) (Hid' : truthy idToken = false)
    (Hat : member su "accessToken" = inl accessToken)
    (Hat' : truthy accessToken = false) :
  handle env w Profile su =
  (Ret NextNotCalled,
   mkSt true su su 200 true []
        [Sent 200 (profile_page_body (JSON_stringify w profile) "none" "none")]).
Proof.
  rewrite profile_run by assumption. unfold profile_table, preview_table.
  rewrite Hprofile, Hid, Hat, Hid', Hat'. reflexivity.
Qed.

Lemma profile_without_tokens_witness :
  handle env0 world0 Profile (VObj [("profile", VObj [])]) =
  (Ret NextNotCalled,
   mkSt true (VObj [("profile", VObj [])]) (VObj [("profile", VObj [])]) 200 true []
        [Sent 200 (profile_page_body "{}" "none" "none")]).
Proof.
  exact (profile_without_tokens env0 world0 (VObj [("profile", VObj [])])
           (VObj []) VUndefined VUndefined eq_refl eq_refl eq_refl eq_refl
           eq_refl eq_refl).
Defined.



(* ===================================================================== *)
(** ** The downstream call: edge cases *)
(* ===================================================================== *)

(** X13.  Whatever value the outbound request is rejected with, as long as
    it is not [undefined] or [null], the request to [/call-api] is answered
    once with status 500, and the page shows that value's [message]
    converted to a string: [undefined] when it has none. *)
Theorem call_api_reports_any_rejection (env : Env) (w : World) (su : JsVal)
    (err message : JsVal)
    (Hsu : truthy su = true)
    (Htoken : truthy (guarded_member su "accessToken") = true)
    (Hfail : downstream w (api_url env)
               [("Authorization",
                 "Bearer " ++ ToString (guarded_member su "accessToken"))]
             = Rejected err)
    (Hmsg : member err "message" = inl message) :
  responses (snd (handle env w CallApi su))
    = [Sent 500 (api_error_body (ToString message))] /\
  fst (handle env w CallApi su) = Ret NextNotCalled.
Proof.
  rewrite call_api_run by assumption. unfold call_api_table. cbv zeta.
  rewrite Htoken, Hfail, Hmsg. split; reflexivity.
Qed.

Lemma call_api_reports_any_rejection_witness :
  responses (snd (handle env0 world_odd_rejection CallApi user0))
    = [Sent 500 (api_error_body "undefined")] /\
  fst (handle env0 world_odd_rejection CallApi user0) = Ret NextNotCalled.
Proof.
  exact (call_api_reports_any_rejection env0 world_odd_rejection user0
           (VObj [("code", VStr "ECONNREFUSED")]) VUndefined
           eq_refl eq_refl eq_refl eq_refl).
Defined.

(* ===================================================================== *)
(** ** The gate and the home page without Passport *)
(* ===================================================================== *)

(** X14.  The guard [req.isAuthenticated && ...] of lines 80 and 87: on a
    request that Passport has not equipped, the gate redirects to [/login]
    and the home page says [Logged Out], even when [req.user] is set. *)
Theorem without_passport_nobody_is_logged_in (st : St)
    (Hbare : req_has_passport st = false) (Hfresh : headersSent st = false) :
  ensureLoggedIn st =
    (Ret NextNotCalled,
     set_headersSent true (set_statusCode 302 (emit (Redirected 302 "/login") st))) /\
  homePage st =
    (Ret NextNotCalled,
     set_headersSent true
       (emit (Sent (statusCode st) (home_page_body VUndefined)) st)) /\
  occurs_in "Logged Out" (home_page_body VUndefined).
Proof.
  unfold ensureLoggedIn, homePage, isAuthenticated_guarded. run_m.
  rewrite Hbare. run_m. rewrite Hfresh. repeat split.
  exists (nl ++ "        <h1>Home</h1>" ++ nl ++ "        <p>Status: ").
  eexists. reflexivity.
Qed.

Lemma without_passport_nobody_is_logged_in_witness :
  ensureLoggedIn (mkSt false user0 user0 200 false [] []) =
    (Ret NextNotCalled,
     mkSt false user0 user0 302 true [] [Redirected 302 "/login"]).
Proof.
  apply (without_passport_nobody_is_logged_in
           (mkSt false user0 user0 200 false [] []) eq_refl eq_refl).
Defined.

(* ===================================================================== *)
(** ** Startup with a complete environment *)
(* ===================================================================== *)



(* ===================================================================== *)
(** ** The verify callback on any input *)
(* ===================================================================== *)

(** X16.  [verify] never turns a login down: for every input it reports no
    error and a user object with the same five properties.  When
    [extraParams] is falsy the guard [extraParams && ...] stores
    [extraParams] itself in [idToken], [tokenType] and [expiresIn] instead
    of throwing. *)
Theorem verify_always_succeeds
    (accessToken refreshToken extraParams profile : JsVal) :
  exists idToken tokenType expiresIn,
    verify accessToken refreshToken extraParams profile =
      (VNull,
       VObj [ ("profile", profile); ("accessToken", accessToken);
              ("idToken", idToken); ("tokenType", tokenType);
              ("expiresIn", expiresIn) ]) /\
    truthy (snd (verify accessToken refreshToken extraParams profile)) = true /\
    (if truthy extraParams then
       member extraParams "id_token" = inl idToken /\
       member extraParams "token_type" = inl tokenType /\
       member extraParams "expires_in" = inl expiresIn
     else
       idToken = extraParams /\ tokenType = extraParams /\ expiresIn = extraParams).
Proof.
  do 3 eexists. split; [reflexivity|]. split; [reflexivity|].
  destruct (truthy extraParams) eqn:E.
  - repeat split; apply guarded_member_truthy; assumption.
  - repeat split; apply guarded_member_falsy; assumption.
Qed.

(* ===================================================================== *)
(** ** From the callback to the protected routes *)
(* ===================================================================== *)

Lemma member_string_guarded (v : JsVal) (k s : string) :
  member v k = inl (VStr s) -> guarded_member v k = VStr s.
Proof.
  intros H.
  assert (Ht : truthy v = true).
  { destruct v; simpl in H; try discriminate; try reflexivity.
    destruct (k =? "length")%string; discriminate. }
  pose proof (guarded_member_truthy v k Ht) as G.
  rewrite H in G. injection G as G. symmetry. exact G.
Qed.

(** The user a later request finds after a callback that delivered tokens:
    the object built by [verify], as the store gives it back. *)
Lemma session_after_delivery (env : Env) (w : World) (su : JsVal)
    (a r e p : JsVal) :
  provider w = Delivered a r e p ->
  session_after env w Callback su = json_roundtrip (snd (verify a r e p)).
Proof.
  intros Hp. unfold session_after. rewrite session_user_after, Hp. reflexivity.
Qed.

(** X17.  Login, then the downstream call: after a callback that delivered
    the non-empty access token [t], the next request of the same browser to
    [/call-api] makes exactly one outbound request, to [api_url], with
    [Authorization: Bearer t]. *)
Theorem login_then_call_api (env : Env) (w w' : World) (su : JsVal) (t : string)
    (refreshToken extraParams profile : JsVal)
    (Ht : t <> "")
    (Hdelivered : provider w = Delivered (VStr t) refreshToken extraParams profile) :
  fetches (snd (handle env w' CallApi (session_after env w Callback su)))
  = [FetchCall (api_url env) [("Authorization", "Bearer " ++ t)]].
Proof.
  rewrite (session_after_delivery env w su _ _ _ _ Hdelivered).
  assert (Hu : truthy (json_roundtrip
                         (snd (verify (VStr t) refreshToken extraParams profile)))
               = true) by reflexivity.
  assert (Hg : guarded_member
                 (json_roundtrip
                    (snd (verify (VStr t) refreshToken extraParams profile)))
                 "accessToken" = VStr t)
    by (apply member_string_guarded; destruct profile; reflexivity).
  rewrite call_api_run by assumption. unfold call_api_table. cbv zeta.
  rewrite Hg. cbn [ToString]. rewrite (truthy_VStr t Ht).
  destruct (downstream w' (api_url env) [("Authorization", "Bearer " ++ t)])
    as [status [text|err]|err]; try destruct (member err "message"); reflexivity.
Qed.

Lemma login_then_call_api_witness :
  fetches (snd (handle env0 world_down CallApi
                  (session_after env0 world0 Callback VUndefined)))
  = [FetchCall "https://api.example.com/secure-data"
       [("Authorization", "Bearer abc")]].
Proof.
  apply (login_then_call_api env0 world0 world_down VUndefined "abc"
           VUndefined
           (VObj [("id_token", VStr "idt"); ("token_type", VStr "Bearer");
                  ("expires_in", VNum 86400)])
           (VObj [("id", VStr "auth0|1")])).
  - discriminate.
  - reflexivity.
Defined.



(** X19.  Login, then the profile page: after a callback that delivered the
    non-empty access token [a] and a token response whose [id_token] is the
    non-empty string [i], the next request to [/profile] is answered with
    status 200 and a page showing the stored profile and the first 40
    characters of [i] and of [a], each followed by three dots. *)
Theorem login_then_profile (env : Env) (w w' : World) (su : JsVal)
    (a i : string) (refreshToken extraParams profile : JsVal)
    (Ha : a <> "") (Hi : i <> "")
    (Hid : member extraParams "id_token" = inl (VStr i))
    (Hdelivered : provider w = Delivered (VStr a) refreshToken extraParams profile) :
  exists st,
    handle env w' Profile (session_after env w Callback su)
      = (Ret NextNotCalled, st) /\
    trace st =
      [Sent 200 (profile_page_body (JSON_stringify w' (json_roundtrip profile))
                   (substring 0 40 i ++ "...") (substring 0 40 a ++ "..."))].
Proof.
  rewrite (session_after_delivery env w su _ _ _ _ Hdelivered).
  rewrite profile_run by reflexivity. unfold profile_table, verify. cbv zeta.
  rewrite (member_string_guarded extraParams "id_token" i Hid).
  cbn [snd].
  generalize (guarded_member extraParams "token_type"),
             (guarded_member extraParams "expires_in").
  intros g2 g3.
  set (user := json_roundtrip
                 (VObj [ ("profile", profile); ("accessToken", VStr a);
                         ("idToken", VStr i); ("tokenType", g2);
                         ("expiresIn", g3) ])).
  assert (Hpp : member user "profile" = inl (json_roundtrip profile))
    by (subst user; destruct profile; try reflexivity;
        destruct g2; try reflexivity; destruct g3; reflexivity).
  assert (Hii : member user "idToken" = inl (VStr i))
    by (subst user; destruct profile; reflexivity).
  assert (Haa : member user "accessToken" = inl (VStr a))
    by (subst user; destruct profile; reflexivity).
  rewrite Hpp, Hii, Haa. unfold preview_table.
  rewrite (truthy_VStr i Hi), (truthy_VStr a Ha).
  eexists. split; reflexivity.
Qed.

Lemma login_then_profile_witness :
  exists st,
    handle env0 world0 Profile (session_after env0 world0 Callback VUndefined)
      = (Ret NextNotCalled, st) /\
    trace st = [Sent 200 (profile_page_body "{}" "idt..." "abc...")].
Proof.
  apply (login_then_profile env0 world0 world0 VUndefined "abc" "idt" VUndefined
           (VObj [("id_token", VStr "idt"); ("token_type", VStr "Bearer");
                  ("expires_in", VNum 86400)])
           (VObj [("id", VStr "auth0|1")]));
    (discriminate || reflexivity).
Defined.

(* ===================================================================== *)
(** ** The [returnTo] argument of line 127 *)
(* ===================================================================== *)

Lemma encodeURIComponent_app (s t : string) :
  encodeURIComponent (s ++ t) = encodeURIComponent s ++ encodeURIComponent t.
Proof.
  induction s as [|c s IH]; cbn [append encodeURIComponent].
  - reflexivity.
  - destruct (uri_unreserved c); cbn [append]; rewrite IH; reflexivity.
Qed.

Lemma hex_digit_unreserved (n : nat) :
  (n < 16)%nat -> uri_unreserved (hex_digit n) = true.
Proof.
  intros H.
  do 16 (destruct n as [|n]; [reflexivity|]). lia.
Qed.

Lemma encodeURIComponent_safe (s : string) :
  forallb uri_safe (list_ascii_of_string (encodeURIComponent s)) = true.
Proof.
  induction s as [|c s IH]; cbn [encodeURIComponent].
  - reflexivity.
  - destruct (uri_unreserved c) eqn:E.
    + cbn [list_ascii_of_string forallb]. unfold uri_safe at 1.
      rewrite E, IH. reflexivity.
    + cbn [list_ascii_of_string forallb].
      assert (Hb : (nat_of_ascii c < 256)%nat) by apply nat_ascii_bounded.
      assert (H1 : uri_unreserved (hex_digit (nat_of_ascii c / 16)) = true).
      { apply hex_digit_unreserved.
        apply Nat.Div0.div_lt_upper_bound. exact Hb. }
      assert (H2 : uri_unreserved (hex_digit (nat_of_ascii c mod 16)) = true).
      { apply hex_digit_unreserved. apply Nat.mod_upper_bound. discriminate. }
      unfold uri_safe at 2 3. rewrite H1, H2, IH. reflexivity.
Qed.

Lemma encodeURIComponent_digits (s : string) :
  forallb is_digit (list_ascii_of_string s) = true ->
  encodeURIComponent s = s.
Proof.
  induction s as [|c s IH]; cbn [list_ascii_of_string forallb encodeURIComponent].
  - reflexivity.
  - intros H. apply andb_true_iff in H. destruct H as [Hc Hs].
    assert (Hu : uri_unreserved c = true).
    { unfold uri_unreserved. unfold is_digit in Hc. rewrite Hc.
      repeat (rewrite orb_true_r || rewrite orb_true_l). reflexivity. }
    rewrite Hu, IH by assumption. reflexivity.
Qed.

(** X20.  Whatever [PORT] holds, the [returnTo] value computed on line 127
    consists only of unreserved characters and percent escapes, so it can
    be placed in a query string as it is. *)
Theorem logout_returnTo_is_safe (env : Env) :
  forallb uri_safe (list_ascii_of_string (logout_returnTo env)) = true.
Proof. apply encodeURIComponent_safe. Qed.

(** X21.  For a numeric [PORT] the [returnTo] value of line 127 is the
    address [http://localhost:<PORT>/] with its colons and slashes escaped
    and the port unchanged. *)
Theorem logout_returnTo_numeric_port (env : Env) (port : string)
    (Hport : PORT env = Some port)
    (Hdigits : forallb is_digit (list_ascii_of_string port) = true) :
  logout_returnTo env = "http%3A%2F%2Flocalhost%3A" ++ port ++ "%2F".
Proof.
  unfold logout_returnTo. rewrite Hport. cbn [env_val ToString].
  rewrite !encodeURIComponent_app, (encodeURIComponent_digits port Hdigits).
  reflexivity.
Qed.

Lemma logout_returnTo_numeric_port_witness :
  logout_returnTo env0 = "http%3A%2F%2Flocalhost%3A3000%2F".
Proof.
  exact (logout_returnTo_numeric_port env0 "3000" eq_refl eq_refl).
Defined.

(* ===================================================================== *)
(** ** The TypeScript entry point *)
(* ===================================================================== *)


